(** * Mechanical joints: kinematic and static torsors

    A shallow embedding of [src/Mechanical_joints.py] (class [Joint]) and the
    properties of its torsor derivation.

    Python strings are modelled as [string] over ASCII text; [str.lower] is
    the ASCII lower-casing.  The class-level dictionary [JOINT_TYPES] and the
    local dictionary [axis_index] are finite maps keyed by strings.  A numpy
    array of [dtype=object] holding Python integers or [None] is a
    [list (option Z)].  An instance is a record of its four attributes, and
    the methods run in a state-and-exception monad over that record.  The
    printing methods [print_torsors] and [list] run in an output-and-exception
    monad over the list of printed lines. *)

From Stdlib Require Import ZArith Ascii.
From stdpp Require Import gmap strings list fin_maps pretty.

Local Open Scope Z_scope.

(** ** Strings *)

Module PyStr.

(** [str.lower] on one ASCII character: 'A'..'Z' go to 'a'..'z'. *)
Definition lower_ascii (c : ascii) : ascii :=
  let n := N_of_ascii c in
  if ((65 <=? n) && (n <=? 90))%N then ascii_of_N (n + 32) else c.

(** [str.lower]. *)
Fixpoint lower (s : string) : string :=
  match s with
  | EmptyString => EmptyString
  | String c s' => String (lower_ascii c) (lower s')
  end.

(** Case-insensitive comparison of two strings, character by character. *)
Fixpoint eqb_nocase (s k : string) : bool :=
  match s, k with
  | EmptyString, EmptyString => true
  | String a s', String b k' =>
      Ascii.eqb (lower_ascii a) (lower_ascii b) && eqb_nocase s' k'
  | _, _ => false
  end.

End PyStr.

(** ** Exceptions and the method monad *)

Inductive exn : Type :=
  | ValueError (msg : string)
  | KeyError (key : string)
  | IndexError
  | TypeError.

Inductive result (A : Type) : Type :=
  | Ok (a : A)
  | Raise (e : exn).
Arguments Ok {A} a.
Arguments Raise {A} e.

(** ** The catalog *)

Record JointInfo : Type := mkJointInfo {
  french : string;
  axis_required : bool;
  description : string
}.

(** The items of the class-level dictionary, in insertion order. *)
Definition JOINT_TYPES_items : list (string * JointInfo) :=
  [ ("revolute",
      {| french := "Pivot"; axis_required := true;
         description := "Rotation around a fixed axis" |});
    ("prismatic",
      {| french := "Glissière"; axis_required := true;
         description := "Translation along a fixed axis" |});
    ("fixed",
      {| french := "Encastrement"; axis_required := false;
         description := "No relative motion" |});
    ("fixed_point",
      {| french := "Appui ponctuel"; axis_required := false;
         description := "Point contact without motion" |}) ].

Definition JOINT_TYPES : gmap string JointInfo := list_to_map JOINT_TYPES_items.

(** ** Instances *)

(** A six-component torsor: an object array whose entries are Python
    integers ([Some n]) or [None]. *)
Abbreviation torsor := (list (option Z)).

Record Joint : Type := mkJoint {
  joint_type : string;
  axis : option string;        (* [None] is Python's None *)
  K : option torsor;           (* [None] is Python's None *)
  T : option torsor
}.

Definition M (A : Type) : Type := Joint -> result A * Joint.

Definition ret {A} (a : A) : M A := fun self => (Ok a, self).

Definition raise {A} (e : exn) : M A := fun self => (Raise e, self).

Definition bind {A B} (m : M A) (k : A -> M B) : M B :=
  fun self =>
    match m self with
    | (Ok a, self') => k a self'
    | (Raise e, self') => (Raise e, self')
    end.

Notation "'let*' x ':=' m 'in' k" := (bind m (fun x => k))
  (at level 10, x name, m at level 100, k at level 200).
Notation "m ';;' k" := (bind m (fun _ => k))
  (at level 100, k at level 200, right associativity).

(** Attribute reads and writes on [self]. *)
Definition get {A} (f : Joint -> A) : M A := fun self => (Ok (f self), self).

Definition set_joint_type (v : string) : M unit :=
  fun self => (Ok tt, mkJoint v (axis self) (K self) (T self)).
Definition set_axis (v : option string) : M unit :=
  fun self => (Ok tt, mkJoint (joint_type self) v (K self) (T self)).
Definition set_K (v : option torsor) : M unit :=
  fun self => (Ok tt, mkJoint (joint_type self) (axis self) v (T self)).
Definition set_T (v : option torsor) : M unit :=
  fun self => (Ok tt, mkJoint (joint_type self) (axis self) (K self) v).

(** [d[k]] on a dictionary: [KeyError] when the key is absent. *)
Definition getitem {V} (d : gmap string V) (k : string) : M V :=
  match d !! k with
  | Some v => ret v
  | None => raise (KeyError k)
  end.

(** [a[i] = v] on a one-dimensional array: negative indices count from the
    end, anything outside [-n, n) is an [IndexError]. *)
Definition setitem (a : torsor) (i : Z) (v : option Z) : M torsor :=
  let n := Z.of_nat (length a) in
  if (0 <=? i) && (i <? n) then ret (<[Z.to_nat i := v]> a)
  else if (- n <=? i) && (i <? 0) then ret (<[Z.to_nat (i + n) := v]> a)
  else raise IndexError.

(** ** The class [Joint] *)

Definition unknown_joint_type (jt : string) : exn :=
  ValueError ("Unknown joint type: " +:+ jt).
Definition missing_axis (jt : string) : exn :=
  ValueError ("Axis must be specified for joint type '" +:+ jt +:+ "'.").
Definition invalid_axis : exn :=
  ValueError "Axis must be 'x', 'y' or 'z'.".

Definition axis_index : gmap string Z :=
  list_to_map [("x", 0); ("y", 1); ("z", 2)].

(** The entry of the static torsor computed from one kinematic entry:
    [None if v is None else (1 if v == 0 else 0)]. *)
Definition static_entry (v : option Z) : option Z :=
  match v with
  | None => None
  | Some n => Some (if n =? 0 then 1 else 0)
  end.

Definition _update_torsors : M unit :=
  let K0 : torsor := [Some 0; Some 0; Some 0; Some 0; Some 0; Some 0] in
  let* jt := get joint_type in
  if bool_decide (JOINT_TYPES !! jt = None) then raise (unknown_joint_type jt)
  else
    let* joint_info := getitem JOINT_TYPES jt in
    let* K1 :=
      if axis_required joint_info then
        let* ax := get axis in
        match ax with
        | None => raise (missing_axis jt)
        | Some a =>
            if bool_decide (axis_index !! a = None) then raise invalid_axis
            else
              let* idx := getitem axis_index a in
              if bool_decide (jt = "revolute") then setitem K0 idx (Some 1)
              else if bool_decide (jt = "prismatic") then
                setitem K0 (idx + 3) (Some 1)
              else ret K0
        end
      else ret K0 in
    set_K (Some K1) ;;
    let* k := get K in
    match k with
    | None => raise TypeError
    | Some vs => set_T (Some (static_entry <$> vs))
    end.

Definition __init__ (joint_type : string) (axis : option string) : M unit :=
  set_joint_type (PyStr.lower joint_type) ;;
  set_axis axis ;;
  set_K None ;;
  set_T None ;;
  _update_torsors.

(** The instance as allocated, before [__init__] runs.  [__init__] assigns
    every attribute before reading any, so these initial values are never
    read. *)
Definition blank : Joint :=
  {| joint_type := ""; axis := None; K := None; T := None |}.

(** The call [Joint(joint_type, axis)]: the new instance when [__init__]
    returns, the exception otherwise. *)
Definition new_Joint (joint_type : string) (axis : option string) : result Joint :=
  match __init__ joint_type axis blank with
  | (Ok _, self) => Ok self
  | (Raise e, _) => Raise e
  end.

(** ** Printing *)

(** Standard output is the list of the arguments of the [print] calls made
    so far, oldest first; each one is written followed by a newline.  A
    printing method runs in an output-and-exception monad: what was printed
    before an exception stays printed. *)
Definition IO (A : Type) : Type := list string -> result A * list string.

Definition io_ret {A} (a : A) : IO A := fun out => (Ok a, out).

Definition io_raise {A} (e : exn) : IO A := fun out => (Raise e, out).

Definition io_bind {A B} (m : IO A) (k : A -> IO B) : IO B :=
  fun out =>
    match m out with
    | (Ok a, out') => k a out'
    | (Raise e, out') => (Raise e, out')
    end.

Notation "m '>>' k" := (io_bind m (fun _ => k))
  (at level 100, k at level 200, right associativity).

Definition print (s : string) : IO unit := fun out => (Ok tt, out ++ [s]).

(** [for x in xs: body(x)]. *)
Fixpoint for_each {A} (xs : list A) (body : A -> IO unit) : IO unit :=
  match xs with
  | [] => io_ret tt
  | x :: xs' => body x >> for_each xs' body
  end.

Definition newline : ascii := "010"%char.

(** [f"{value}"] for an entry of an object array: the decimal numeral of an
    integer, or the text None. *)
Definition format_value (v : option Z) : string :=
  match v with
  | None => "None"
  | Some n => pretty n
  end.

(** Truth value of the attribute [axis]: [None] and the empty string are
    false. *)
Definition truthy (a : option string) : bool :=
  match a with
  | None => false
  | Some EmptyString => false
  | Some (String _ _) => true
  end.

Definition kinematic_labels : list string :=
  ["Omega_x"; "Omega_y"; "Omega_z"; "V_x"; "V_y"; "V_z"].
Definition static_labels : list string :=
  ["M_x"; "M_y"; "M_z"; "F_x"; "F_y"; "F_z"].

(** One printed row, [f"  {label} = {value}"]. *)
Definition row (lv : string * option Z) : string :=
  "  " +:+ fst lv +:+ " = " +:+ format_value (snd lv).

(** [print_torsors]; iterating over a torsor attribute that is [None]
    raises [TypeError]. *)
Definition print_torsors (self : Joint) : IO unit :=
  print ("Mechanical joint type : " +:+ joint_type self) >>
  (if truthy (axis self)
   then print ("Axis : " +:+ default "" (axis self))
   else io_ret tt) >>
  print (String newline "Kinematic torsor (DDL):") >>
  match K self with
  | None => io_raise TypeError
  | Some k => for_each (zip kinematic_labels k) (fun lv => print (row lv))
  end >>
  print (String newline "Static torsor (ideal):") >>
  match T self with
  | None => io_raise TypeError
  | Some t => for_each (zip static_labels t) (fun lv => print (row lv))
  end.

Module JointClass.

(** The line [list] prints for one catalog item. *)
Definition item_line (kv : string * JointInfo) : string :=
  let axis_info :=
    if axis_required (snd kv) then "axis required" else "no axis" in
  "- " +:+ fst kv +:+ " (" +:+ french (snd kv) +:+ ") : " +:+
  description (snd kv) +:+ " [" +:+ axis_info +:+ "]".

(** The class method [list], given the items of [cls.JOINT_TYPES] in
    insertion order. *)
Definition list (cls_JOINT_TYPES : list (string * JointInfo)) : IO unit :=
  print ("Available mechanical joint types:" +:+ String newline "") >>
  for_each cls_JOINT_TYPES (fun kv => print (item_line kv)).

End JointClass.

(** ** Specification-side notions *)

(** The catalog lookup as the contract words it, to be compared with the
    test the constructor performs: a case-insensitive key lookup, scanning
    the catalog items in order. *)
Definition lookup_nocase (key : string) : option JointInfo :=
  snd <$> List.find (fun kv => PyStr.eqb_nocase key (fst kv)) JOINT_TYPES_items.

(** [one_hot i k]: the torsor [k] has six entries, [1] at index [i] and [0]
    at every other index. *)
Definition one_hot (i : nat) (k : torsor) : Prop :=
  length k = 6%nat /\
  forall j, (j < 6)%nat -> k !! j = Some (Some (if decide (j = i) then 1 else 0)).

(** [complement_of k t]: [t] is entrywise one minus [k]. *)
Definition complement_of (k t : torsor) : Prop :=
  length t = length k /\
  forall j v, k !! j = Some (Some v) -> t !! j = Some (Some (1 - v)).

(** An entry that is resolved to [0] or [1]. *)
Definition resolved (v : option Z) : Prop := v = Some 0 \/ v = Some 1.

(** Number of entries of a torsor equal to [1]. *)
Definition dof (k : torsor) : nat := length (filter (fun v => v = Some 1) k).

(** The lines [print_torsors] writes before the kinematic rows: the type,
    the axis when it is given and not empty, and the heading. *)
Definition preamble (self : Joint) : list string :=
  ("Mechanical joint type : " +:+ joint_type self) ::
  (if truthy (axis self) then ["Axis : " +:+ default "" (axis self)] else []) ++
  [String newline "Kinematic torsor (DDL):"].

Abbreviation zeros := [Some 0; Some 0; Some 0; Some 0; Some 0; Some 0].
Abbreviation ones := [Some 1; Some 1; Some 1; Some 1; Some 1; Some 1].

(** * Properties *)

(** Unfolds one run of [_update_torsors] down to its dictionary lookups. *)
Ltac run_update :=
  unfold _update_torsors, bind, get, getitem, ret, raise, set_K, set_T; simpl.

(** ** Strings *)

Lemma lower_ascii_idem c : PyStr.lower_ascii (PyStr.lower_ascii c) = PyStr.lower_ascii c.
Proof. destruct c as [[] [] [] [] [] [] [] []]; reflexivity. Qed.

Lemma lower_idem s : PyStr.lower (PyStr.lower s) = PyStr.lower s.
Proof.
  induction s as [|c s IH]; simpl; [reflexivity|].
  now rewrite lower_ascii_idem, IH.
Qed.

Lemma eqb_nocase_lower s k :
  PyStr.eqb_nocase s k = true <-> PyStr.lower s = PyStr.lower k.
Proof.
  revert k. induction s as [|a s IH]; intros [|b k]; simpl; try (split; congruence).
  rewrite andb_true_iff, IH. split.
  - intros [Hab ->]. apply Ascii.eqb_eq in Hab. now rewrite Hab.
  - intros [= Hab ->]. split; [now apply Ascii.eqb_eq | reflexivity].
Qed.

(** ** The two dictionaries *)

Lemma JOINT_TYPES_lookup_Some k info :
  JOINT_TYPES !! k = Some info ->
  (k = "revolute" \/ k = "prismatic") /\ axis_required info = true \/
  (k = "fixed" \/ k = "fixed_point") /\ axis_required info = false.
Proof.
  unfold JOINT_TYPES, JOINT_TYPES_items. simpl. intros H.
  repeat (apply lookup_insert_Some in H as [[<- <-]|[_ H]]; [simpl; tauto|]).
  now rewrite lookup_empty in H.
Qed.

Lemma axis_index_lookup_Some a i :
  axis_index !! a = Some i ->
  a = "x" /\ i = 0 \/ a = "y" /\ i = 1 \/ a = "z" /\ i = 2.
Proof.
  unfold axis_index. simpl. intros H.
  repeat (apply lookup_insert_Some in H as [[<- <-]|[_ H]]; [tauto|]).
  now rewrite lookup_empty in H.
Qed.

Lemma axis_index_lookup_None a :
  a <> "x" -> a <> "y" -> a <> "z" -> axis_index !! a = None.
Proof.
  intros Hx Hy Hz. unfold axis_index. simpl.
  now rewrite !lookup_insert_ne, lookup_empty by congruence.
Qed.

(** ** Running the methods *)

(** [__init__] overwrites the four attributes and hands over to
    [_update_torsors]; nothing of the previous state is left. *)
Lemma init_update jt ax self :
  __init__ jt ax self = _update_torsors (mkJoint (PyStr.lower jt) ax None None).
Proof. reflexivity. Qed.

Lemma update_unknown self :
  JOINT_TYPES !! joint_type self = None ->
  _update_torsors self = (Raise (unknown_joint_type (joint_type self)), self).
Proof.
  intros H. run_update. now rewrite bool_decide_eq_true_2.
Qed.

Lemma update_no_axis self info :
  JOINT_TYPES !! joint_type self = Some info ->
  axis_required info = false ->
  _update_torsors self =
  (Ok tt, mkJoint (joint_type self) (axis self) (Some zeros) (Some ones)).
Proof.
  intros H Hreq. run_update.
  rewrite bool_decide_eq_false_2 by (rewrite H; discriminate).
  now rewrite H, Hreq.
Qed.

Lemma update_missing_axis self info :
  JOINT_TYPES !! joint_type self = Some info ->
  axis_required info = true ->
  axis self = None ->
  _update_torsors self = (Raise (missing_axis (joint_type self)), self).
Proof.
  intros H Hreq Hax. run_update.
  rewrite bool_decide_eq_false_2 by (rewrite H; discriminate).
  now rewrite H, Hreq, Hax.
Qed.

Lemma update_invalid_axis self info a :
  JOINT_TYPES !! joint_type self = Some info ->
  axis_required info = true ->
  axis self = Some a ->
  axis_index !! a = None ->
  _update_torsors self = (Raise invalid_axis, self).
Proof.
  intros H Hreq Hax Ha. run_update.
  rewrite bool_decide_eq_false_2 by (rewrite H; discriminate).
  rewrite H, Hreq, Hax. now rewrite bool_decide_eq_true_2.
Qed.

(** With a required and valid axis the method returns; the kinematic torsor
    is [zeros] with one entry overwritten, and the static torsor is computed
    from it entry by entry. *)
Lemma update_with_axis self info a i :
  JOINT_TYPES !! joint_type self = Some info ->
  axis_required info = true ->
  axis self = Some a ->
  axis_index !! a = Some i ->
  exists j : nat,
    (joint_type self = "revolute" /\ j = Z.to_nat i \/
     joint_type self = "prismatic" /\ j = Z.to_nat (i + 3)) /\
    _update_torsors self =
    (Ok tt, mkJoint (joint_type self) (axis self)
              (Some (<[j := Some 1]> zeros))
              (Some (static_entry <$> <[j := Some 1]> zeros))).
Proof.
  destruct self as [jt ax k t]; simpl. intros H Hreq -> Ha.
  apply JOINT_TYPES_lookup_Some in H as [[[->| ->] _]|[_ Hf]]; [| |congruence];
    apply axis_index_lookup_Some in Ha as [[-> ->]|[[-> ->]|[-> ->]]];
    eexists; (split; [eauto|reflexivity]).
Qed.

(** Every run of [_update_torsors] either raises one of the three validation
    errors and leaves the instance as it was, or returns with both torsors
    assigned, the kinematic one being [zeros] with at most one entry
    overwritten by [1]. *)
Lemma update_cases self :
  (exists e,
     _update_torsors self = (Raise e, self) /\
     (e = unknown_joint_type (joint_type self) \/
      e = missing_axis (joint_type self) \/ e = invalid_axis)) \/
  (exists k,
     _update_torsors self =
     (Ok tt, mkJoint (joint_type self) (axis self)
               (Some k) (Some (static_entry <$> k))) /\
     (k = zeros \/ exists j, (j < 6)%nat /\ k = <[j := Some 1]> zeros)).
Proof.
  destruct (JOINT_TYPES !! joint_type self) as [info|] eqn:H.
  2:{ left. eexists. split; [now apply update_unknown | tauto]. }
  destruct (axis_required info) eqn:Hreq.
  2:{ right. exists zeros. split; [now apply (update_no_axis _ info) | tauto]. }
  destruct (axis self) as [a|] eqn:Hax.
  2:{ left. eexists. split; [now apply (update_missing_axis _ info) | tauto]. }
  destruct (axis_index !! a) as [i|] eqn:Ha.
  2:{ left. eexists. split; [now apply (update_invalid_axis _ info a) | tauto]. }
  right. destruct (update_with_axis self info a i H Hreq Hax Ha) as (j & Hj & Hrun).
  exists (<[j := Some 1]> zeros). split; [now rewrite Hrun, Hax|]. right. exists j.
  split; [|reflexivity].
  apply axis_index_lookup_Some in Ha as [[_ ->]|[[_ ->]|[_ ->]]];
    destruct Hj as [[_ ->]|[_ ->]]; simpl; lia.
Qed.

(** The outcome of [_update_torsors] is fixed by the attributes
    [joint_type] and [axis]: the torsors the instance held before are never
    read. *)
Lemma update_frame jt ax k1 t1 k2 t2 :
  fst (_update_torsors (mkJoint jt ax k1 t1)) =
    fst (_update_torsors (mkJoint jt ax k2 t2)) /\
  (forall self', _update_torsors (mkJoint jt ax k1 t1) = (Ok tt, self') ->
                 _update_torsors (mkJoint jt ax k2 t2) = (Ok tt, self')).
Proof.
  set (s1 := mkJoint jt ax k1 t1). set (s2 := mkJoint jt ax k2 t2).
  destruct (JOINT_TYPES !! jt) as [info|] eqn:H.
  2:{ rewrite (update_unknown s1), (update_unknown s2) by exact H.
      split; [reflexivity|discriminate]. }
  destruct (axis_required info) eqn:Hreq.
  2:{ rewrite (update_no_axis s1 info), (update_no_axis s2 info) by done.
      split; [reflexivity|tauto]. }
  destruct ax as [a|].
  2:{ rewrite (update_missing_axis s1 info), (update_missing_axis s2 info)
        by done.
      split; [reflexivity|discriminate]. }
  destruct (axis_index !! a) as [i|] eqn:Ha.
  2:{ rewrite (update_invalid_axis s1 info a), (update_invalid_axis s2 info a)
        by done.
      split; [reflexivity|discriminate]. }
  destruct (update_with_axis s1 info a i H Hreq eq_refl Ha) as (j1 & Hj1 & ->).
  destruct (update_with_axis s2 info a i H Hreq eq_refl Ha) as (j2 & Hj2 & ->).
  assert (j1 = j2) as ->.
  { simpl in Hj1, Hj2.
    destruct Hj1 as [[E1 ->]|[E1 ->]], Hj2 as [[E2 ->]|[E2 ->]];
      congruence. }
  split; [reflexivity|tauto].
Qed.

(** ** Torsors *)

Lemma resolved_static_entry v : resolved v -> resolved (static_entry v).
Proof. intros [-> | ->]; [right|left]; reflexivity. Qed.

Lemma static_entry_minus v n :
  resolved v -> v = Some n -> static_entry v = Some (1 - n).
Proof. intros [-> | ->] [= <-]; reflexivity. Qed.

Lemma zeros_resolved : Forall resolved zeros.
Proof. repeat constructor. Qed.

Lemma kinematic_resolved (k : torsor) :
  k = zeros \/ (exists j, (j < 6)%nat /\ k = <[j := Some 1]> zeros) ->
  Forall resolved k.
Proof.
  intros [-> | (j & _ & ->)]; [apply zeros_resolved|].
  apply Forall_insert; [apply zeros_resolved | now right].
Qed.

Lemma static_resolved (k : torsor) :
  Forall resolved k -> Forall resolved (static_entry <$> k).
Proof.
  intros H. apply Forall_fmap. eapply Forall_impl; [exact H|].
  intros v. apply resolved_static_entry.
Qed.

Lemma static_complement (k : torsor) :
  Forall resolved k -> complement_of k (static_entry <$> k).
Proof.
  intros Hk. split; [apply length_fmap|].
  intros j v Hj. rewrite list_lookup_fmap, Hj. cbn [fmap option_fmap option_map].
  f_equal. apply static_entry_minus; [|reflexivity].
  exact (Forall_lookup_1 _ _ _ _ Hk Hj).
Qed.

Lemma one_hot_insert j : (j < 6)%nat -> one_hot j (<[j := Some 1]> zeros).
Proof.
  intros Hj. split; [now rewrite length_insert|].
  intros i Hi. destruct (decide (i = j)) as [->|Hne].
  - now apply list_lookup_insert_eq.
  - rewrite list_lookup_insert_ne by congruence.
    do 6 (destruct i as [|i]; [reflexivity|]). lia.
Qed.

Lemma dof_kinematic (k : torsor) :
  k = zeros \/ (exists j, (j < 6)%nat /\ k = <[j := Some 1]> zeros) ->
  (dof k <= 1)%nat.
Proof.
  intros [-> | (j & Hj & ->)]; [vm_compute; lia|].
  do 6 (destruct j as [|j]; [vm_compute; lia|]). lia.
Qed.

(** ** The catalog lookup *)

(** The lookup the constructor performs, [JOINT_TYPES] at the lower-cased
    key, is the case-insensitive lookup of the catalog contract. *)
Lemma lookup_nocase_lower s : lookup_nocase s = JOINT_TYPES !! PyStr.lower s.
Proof.
  assert (Hkey : forall k, PyStr.lower k = k ->
            PyStr.eqb_nocase s k = bool_decide (PyStr.lower s = k)).
  { intros k Hk. apply eq_true_iff_eq.
    rewrite eqb_nocase_lower, Hk, bool_decide_eq_true. reflexivity. }
  unfold lookup_nocase, JOINT_TYPES, JOINT_TYPES_items. simpl.
  rewrite !Hkey by reflexivity.
  repeat (case_bool_decide;
          [match goal with Hs : PyStr.lower s = _ |- _ => rewrite <- Hs end;
           simpl; now rewrite lookup_insert_eq
          |rewrite lookup_insert_ne by congruence]).
  reflexivity.
Qed.

(** ** Construction *)

Lemma new_Joint_update jt ax :
  new_Joint jt ax =
  match _update_torsors (mkJoint (PyStr.lower jt) ax None None) with
  | (Ok _, self) => Ok self
  | (Raise e, _) => Raise e
  end.
Proof. reflexivity. Qed.

(** C1. A revolute joint about axis x, y or z has its single [1] at index
    0, 1 or 2 of the kinematic torsor, a prismatic joint along x, y or z at
    index 3, 4 or 5; every other kinematic entry is [0] and the static torsor
    is the entrywise complement.  The construction succeeds.  The scenarios
    revolute/z and prismatic/y give the torsors listed. *)
Theorem revolute_prismatic_torsors :
  (forall (jt a : string) (i : nat),
     PyStr.lower jt = "revolute" /\
       (a, i) ∈ [("x", 0%nat); ("y", 1%nat); ("z", 2%nat)] \/
     PyStr.lower jt = "prismatic" /\
       (a, i) ∈ [("x", 3%nat); ("y", 4%nat); ("z", 5%nat)] ->
     exists k t : torsor,
       new_Joint jt (Some a) =
         Ok (mkJoint (PyStr.lower jt) (Some a) (Some k) (Some t)) /\
       one_hot i k /\ complement_of k t) /\
  new_Joint "revolute" (Some "z") =
    Ok (mkJoint "revolute" (Some "z")
          (Some [Some 0; Some 0; Some 1; Some 0; Some 0; Some 0])
          (Some [Some 1; Some 1; Some 0; Some 1; Some 1; Some 1])) /\
  new_Joint "prismatic" (Some "y") =
    Ok (mkJoint "prismatic" (Some "y")
          (Some [Some 0; Some 0; Some 0; Some 0; Some 1; Some 0])
          (Some [Some 1; Some 1; Some 1; Some 1; Some 0; Some 1])).
Proof.
  split; [|split; reflexivity].
  intros jt a i H.
  exists (<[i := Some 1]> zeros), (static_entry <$> <[i := Some 1]> zeros).
  assert (Hi : (i < 6)%nat).
  { destruct H as [[_ Hin]|[_ Hin]];
      repeat (apply elem_of_cons in Hin as [[= _ ->]|Hin]; [lia|]);
      now apply elem_of_nil in Hin. }
  split; [|split].
  - rewrite new_Joint_update.
    destruct H as [[-> Hin]|[-> Hin]];
      repeat (apply elem_of_cons in Hin as [[= -> ->]|Hin]; [reflexivity|]);
      now apply elem_of_nil in Hin.
  - now apply one_hot_insert.
  - apply static_complement, kinematic_resolved. right. now exists i.
Qed.

Lemma revolute_prismatic_torsors_witness :
  (PyStr.lower "Revolute" = "revolute" /\
     ("z", 2%nat) ∈ [("x", 0%nat); ("y", 1%nat); ("z", 2%nat)]) /\
  exists k t : torsor,
    new_Joint "Revolute" (Some "z") =
      Ok (mkJoint (PyStr.lower "Revolute") (Some "z") (Some k) (Some t)) /\
    one_hot 2 k /\ complement_of k t.
Proof.
  assert (H : PyStr.lower "Revolute" = "revolute" /\
              ("z", 2%nat) ∈ [("x", 0%nat); ("y", 1%nat); ("z", 2%nat)]).
  { split; [reflexivity | repeat constructor]. }
  split; [exact H|].
  exact (proj1 revolute_prismatic_torsors "Revolute" "z" 2%nat (or_introl H)).
Defined.

(** C2. A joint whose catalog entry requires no axis (fixed, fixed_point) is
    constructed successfully, with kinematic torsor [0,0,0,0,0,0] and static
    torsor [1,1,1,1,1,1]. *)
Theorem no_axis_torsors (jt : string) (ax : option string) (info : JointInfo) :
  JOINT_TYPES !! PyStr.lower jt = Some info ->
  axis_required info = false ->
  (PyStr.lower jt = "fixed" \/ PyStr.lower jt = "fixed_point") /\
  new_Joint jt ax = Ok (mkJoint (PyStr.lower jt) ax (Some zeros) (Some ones)).
Proof.
  intros H Hreq. split.
  - apply JOINT_TYPES_lookup_Some in H as [[_ Ht]|[Hk _]]; [congruence|exact Hk].
  - rewrite new_Joint_update.
    now rewrite (update_no_axis (mkJoint (PyStr.lower jt) ax None None) info).
Qed.

Lemma no_axis_torsors_witness :
  (PyStr.lower "fixed_point" = "fixed" \/
   PyStr.lower "fixed_point" = "fixed_point") /\
  new_Joint "fixed_point" None =
    Ok (mkJoint (PyStr.lower "fixed_point") None (Some zeros) (Some ones)).
Proof.
  apply (no_axis_torsors "fixed_point" None
           (mkJointInfo "Appui ponctuel" false "Point contact without motion"));
    reflexivity.
Defined.

(** C3. Complement law: in a constructed joint, at every index where the
    kinematic and the static entries are both resolved to 0 or 1, the static
    entry is one minus the kinematic entry. *)
Theorem complement_law (jt : string) (ax : option string) (self : Joint)
    (k t : torsor) (i : nat) (a b : Z) :
  new_Joint jt ax = Ok self ->
  K self = Some k -> T self = Some t ->
  (i < 6)%nat ->
  k !! i = Some (Some a) -> t !! i = Some (Some b) ->
  resolved (Some a) -> resolved (Some b) ->
  b = 1 - a.
Proof.
  intros Hnew HK HT _ Hk Ht _ _. rewrite new_Joint_update in Hnew.
  destruct (update_cases (mkJoint (PyStr.lower jt) ax None None))
    as [(e & Hrun & _)|(k' & Hrun & Hk')]; rewrite Hrun in Hnew; [discriminate|].
  injection Hnew as <-. simpl in HK, HT. injection HK as ->. injection HT as <-.
  destruct (static_complement k (kinematic_resolved k Hk')) as [_ Hc].
  specialize (Hc i a Hk). congruence.
Qed.

Lemma complement_law_witness :
  new_Joint "prismatic" (Some "y") =
    Ok (mkJoint "prismatic" (Some "y")
          (Some [Some 0; Some 0; Some 0; Some 0; Some 1; Some 0])
          (Some [Some 1; Some 1; Some 1; Some 1; Some 0; Some 1])) /\
  0 = 1 - 1.
Proof.
  split; [reflexivity|].
  apply (complement_law "prismatic" (Some "y")
           (mkJoint "prismatic" (Some "y")
              (Some [Some 0; Some 0; Some 0; Some 0; Some 1; Some 0])
              (Some [Some 1; Some 1; Some 1; Some 1; Some 0; Some 1]))
           [Some 0; Some 0; Some 0; Some 0; Some 1; Some 0]
           [Some 1; Some 1; Some 1; Some 1; Some 0; Some 1] 4%nat 1 0);
    try reflexivity; [lia | now right | now left].
Defined.

Lemma w_not_an_axis : "w" ∉ ["x"; "y"; "z"].
Proof.
  intros Hin. repeat (apply elem_of_cons in Hin as [Hin|Hin]; [discriminate|]).
  now apply elem_of_nil in Hin.
Qed.

(** C4, as stated, fails: for the joint type fixed, whose catalog entry has
    [axis_required = False], the axis "w" is never looked at and the
    construction returns an instance. *)
Lemma fixed_accepts_axis_w :
  is_Some (JOINT_TYPES !! PyStr.lower "fixed") /\
  ("w" ∉ ["x"; "y"; "z"]) /\
  new_Joint "fixed" (Some "w") =
    Ok (mkJoint "fixed" (Some "w") (Some zeros) (Some ones)) /\
  new_Joint "fixed" (Some "w") <> Raise invalid_axis.
Proof.
  split; [eexists; reflexivity|].
  split; [exact w_not_an_axis|split; [reflexivity|discriminate]].
Qed.

(** C4, amended. For a catalog type whose entry requires an axis (revolute,
    prismatic), an axis that is given but is none of "x", "y", "z" makes the
    construction fail with the invalid-axis error.  For a type that requires
    no axis (fixed, fixed_point) the axis is not validated: the construction
    succeeds with the all-zero kinematic and all-one static torsor. *)
Theorem invalid_axis_error (jt a : string) (info : JointInfo) :
  JOINT_TYPES !! PyStr.lower jt = Some info ->
  a ∉ ["x"; "y"; "z"] ->
  new_Joint jt (Some a) =
    if axis_required info then Raise invalid_axis
    else Ok (mkJoint (PyStr.lower jt) (Some a) (Some zeros) (Some ones)).
Proof.
  intros H Ha. rewrite new_Joint_update.
  destruct (axis_required info) eqn:Hreq.
  - rewrite (update_invalid_axis (mkJoint (PyStr.lower jt) (Some a) None None)
               info a); try done.
    apply axis_index_lookup_None; intros ->; apply Ha; repeat constructor.
  - now rewrite (update_no_axis (mkJoint (PyStr.lower jt) (Some a) None None)
                   info).
Qed.

Lemma invalid_axis_error_witness :
  ("w" ∉ ["x"; "y"; "z"]) /\
  new_Joint "Prismatic" (Some "w") = Raise invalid_axis.
Proof.
  split; [exact w_not_an_axis|].
  exact (invalid_axis_error "Prismatic" "w"
           (mkJointInfo "Glissière" true "Translation along a fixed axis")
           eq_refl w_not_an_axis).
Defined.

Lemma axis_errors_not_unknown jt :
  missing_axis jt <> unknown_joint_type jt /\
  invalid_axis <> unknown_joint_type jt.
Proof. split; discriminate. Qed.

(** C5. A joint-type string that no catalog key matches case-insensitively
    makes the construction fail with the unknown-joint-type error, whatever
    the axis.  A string that does match a key is never rejected as unknown:
    the construction returns an instance of the lower-cased type as soon as
    the axis is acceptable for that entry.  Strings equal up to case
    construct the same thing; "REVOLUTE" and "revolute" resolve to the same
    catalog entry and give the same result, an instance when the axis is
    valid. *)
Theorem unknown_joint_type_error :
  (forall (s : string) (ax : option string),
     lookup_nocase s = None ->
     new_Joint s ax = Raise (unknown_joint_type (PyStr.lower s))) /\
  (forall (s : string) (ax : option string) (info : JointInfo),
     lookup_nocase s = Some info ->
     new_Joint s ax <> Raise (unknown_joint_type (PyStr.lower s)) /\
     ((axis_required info = true ->
       exists a, ax = Some a /\ a ∈ ["x"; "y"; "z"]) ->
      exists self,
        new_Joint s ax = Ok self /\ joint_type self = PyStr.lower s)) /\
  (forall (s1 s2 : string) (ax : option string),
     PyStr.eqb_nocase s1 s2 = true -> new_Joint s1 ax = new_Joint s2 ax) /\
  lookup_nocase "REVOLUTE" = JOINT_TYPES !! "revolute" /\
  lookup_nocase "revolute" = JOINT_TYPES !! "revolute" /\
  is_Some (JOINT_TYPES !! "revolute") /\
  (forall ax : option string,
     new_Joint "REVOLUTE" ax = new_Joint "revolute" ax) /\
  new_Joint "REVOLUTE" (Some "z") =
    Ok (mkJoint "revolute" (Some "z")
          (Some [Some 0; Some 0; Some 1; Some 0; Some 0; Some 0])
          (Some [Some 1; Some 1; Some 0; Some 1; Some 1; Some 1])) /\
  new_Joint "revolute" (Some "z") =
    Ok (mkJoint "revolute" (Some "z")
          (Some [Some 0; Some 0; Some 1; Some 0; Some 0; Some 0])
          (Some [Some 1; Some 1; Some 0; Some 1; Some 1; Some 1])).
Proof.
  split; [|split; [|split]].
  - intros s ax H. rewrite lookup_nocase_lower in H.
    rewrite new_Joint_update.
    now rewrite (update_unknown (mkJoint (PyStr.lower s) ax None None)).
  - intros s ax info H. rewrite lookup_nocase_lower in H.
    rewrite new_Joint_update.
    set (s0 := mkJoint (PyStr.lower s) ax None None).
    destruct (axis_errors_not_unknown (PyStr.lower s)) as [Hm Hi].
    destruct (axis_required info) eqn:Hreq.
    2:{ rewrite (update_no_axis s0 info H Hreq).
        split; [discriminate|]. intros _. eexists; split; reflexivity. }
    destruct ax as [a|].
    2:{ rewrite (update_missing_axis s0 info H Hreq eq_refl).
        split; [intros E; apply Hm; simpl in E; congruence|]. intros Hax.
        destruct (Hax eq_refl) as (a & Ha & _). discriminate Ha. }
    destruct (axis_index !! a) as [i|] eqn:Ha.
    + destruct (update_with_axis s0 info a i H Hreq eq_refl Ha)
        as (j & _ & ->).
      split; [discriminate|]. intros _. eexists; split; reflexivity.
    + rewrite (update_invalid_axis s0 info a H Hreq eq_refl Ha).
      split; [intros E; apply Hi; simpl in E; congruence|]. intros Hax.
      destruct (Hax eq_refl) as (a' & [= <-] & Hin). exfalso.
      repeat (apply elem_of_cons in Hin as [->|Hin]; [discriminate Ha|]).
      now apply elem_of_nil in Hin.
  - intros s1 s2 ax H. apply eqb_nocase_lower in H.
    now rewrite !new_Joint_update, H.
  - repeat split; try reflexivity. eexists; reflexivity.
Qed.

Lemma unknown_joint_type_error_witness :
  lookup_nocase "teleport" = None /\
  new_Joint "teleport" (Some "x") =
    Raise (ValueError "Unknown joint type: teleport").
Proof.
  split; [reflexivity|].
  exact (proj1 unknown_joint_type_error "teleport" (Some "x") eq_refl).
Defined.

(** C6. For a catalog type whose entry has [axis_required = True] (revolute,
    prismatic), constructing without an axis fails with the missing-axis
    error. *)
Theorem missing_axis_error (jt : string) (info : JointInfo) :
  JOINT_TYPES !! PyStr.lower jt = Some info ->
  axis_required info = true ->
  (PyStr.lower jt = "revolute" \/ PyStr.lower jt = "prismatic") /\
  new_Joint jt None = Raise (missing_axis (PyStr.lower jt)).
Proof.
  intros H Hreq. split.
  - apply JOINT_TYPES_lookup_Some in H as [[Hk _]|[_ Hf]]; [exact Hk|congruence].
  - rewrite new_Joint_update.
    now rewrite (update_missing_axis (mkJoint (PyStr.lower jt) None None None)
                   info).
Qed.

Lemma missing_axis_error_witness :
  (PyStr.lower "revolute" = "revolute" \/ PyStr.lower "revolute" = "prismatic") /\
  new_Joint "revolute" None = Raise (missing_axis (PyStr.lower "revolute")).
Proof.
  exact (missing_axis_error "revolute"
           (mkJointInfo "Pivot" true "Rotation around a fixed axis")
           eq_refl eq_refl).
Defined.

(** C7. Construction is atomic.  Whatever the instance held before,
    [__init__] either raises one of the three validation errors with both
    torsor attributes still [None], and the constructor call yields no
    instance, or it returns with both torsors assigned. *)
Theorem construction_atomic (jt : string) (ax : option string) (self0 : Joint) :
  (exists e,
     __init__ jt ax self0 = (Raise e, mkJoint (PyStr.lower jt) ax None None) /\
     new_Joint jt ax = Raise e /\
     (e = unknown_joint_type (PyStr.lower jt) \/
      e = missing_axis (PyStr.lower jt) \/ e = invalid_axis)) \/
  (exists k t : torsor,
     __init__ jt ax self0 =
       (Ok tt, mkJoint (PyStr.lower jt) ax (Some k) (Some t)) /\
     new_Joint jt ax = Ok (mkJoint (PyStr.lower jt) ax (Some k) (Some t))).
Proof.
  rewrite new_Joint_update, init_update.
  destruct (update_cases (mkJoint (PyStr.lower jt) ax None None))
    as [(e & Hrun & He)|(k & Hrun & _)]; rewrite Hrun; simpl.
  - left. exists e. auto.
  - right. exists k, (static_entry <$> k). auto.
Qed.

(** C8. The torsor derivation is a function of [joint_type] and [axis]
    alone.  On two instances with the same [joint_type] and [axis],
    whatever torsors they hold, [_update_torsors] gives the same result
    (returns on both, or raises the same exception on both) and, when it
    returns, leaves the same instance, so equal kinematic and equal static
    torsors.  Hence two runs of [__init__] on equal arguments have the same
    outcome, whatever the instances held before. *)
Theorem derivation_deterministic (jt : string) (ax : option string)
    (k1 t1 k2 t2 : option torsor) (self1 self2 : Joint) :
  fst (_update_torsors (mkJoint jt ax k1 t1)) =
    fst (_update_torsors (mkJoint jt ax k2 t2)) /\
  (forall self',
     _update_torsors (mkJoint jt ax k1 t1) = (Ok tt, self') ->
     _update_torsors (mkJoint jt ax k2 t2) = (Ok tt, self') /\
     joint_type self' = jt /\ axis self' = ax /\
     is_Some (K self') /\ is_Some (T self')) /\
  __init__ jt ax self1 = __init__ jt ax self2 /\
  K (snd (__init__ jt ax self1)) = K (snd (__init__ jt ax self2)) /\
  T (snd (__init__ jt ax self1)) = T (snd (__init__ jt ax self2)).
Proof.
  destruct (update_frame jt ax k1 t1 k2 t2) as [Hres Hok].
  split; [exact Hres|]. split; [|now rewrite !init_update].
  intros self' Hrun. split; [now apply Hok|].
  destruct (update_cases (mkJoint jt ax k1 t1))
    as [(e & He & _)|(k & Hk & _)]; rewrite Hrun in *; [discriminate|].
  injection Hk as ->. simpl. eauto.
Qed.

(** C9. In a constructed joint both torsors have six entries, each of
    them 0 or 1 (no entry is [None], so the [None] branch of the static
    derivation is never taken), and at most one kinematic entry is 1. *)
Theorem torsor_entries_binary (jt : string) (ax : option string) (self : Joint) :
  new_Joint jt ax = Ok self ->
  exists k t : torsor,
    K self = Some k /\ T self = Some t /\
    length k = 6%nat /\ length t = 6%nat /\
    Forall resolved k /\ Forall resolved t /\
    (dof k <= 1)%nat.
Proof.
  intros Hnew. rewrite new_Joint_update in Hnew.
  destruct (update_cases (mkJoint (PyStr.lower jt) ax None None))
    as [(e & Hrun & _)|(k & Hrun & Hk)]; rewrite Hrun in Hnew; [discriminate|].
  injection Hnew as <-. exists k, (static_entry <$> k). simpl.
  pose proof (kinematic_resolved k Hk) as Hres.
  assert (Hlen : length k = 6%nat).
  { destruct Hk as [-> | (j & _ & ->)]; [reflexivity|now rewrite length_insert]. }
  repeat split; try done.
  - now rewrite length_fmap.
  - now apply static_resolved.
  - now apply dof_kinematic.
Qed.

Lemma torsor_entries_binary_witness :
  exists k t : torsor,
    K (mkJoint "revolute" (Some "x") (Some (<[0%nat := Some 1]> zeros))
         (Some (static_entry <$> <[0%nat := Some 1]> zeros))) = Some k /\
    T (mkJoint "revolute" (Some "x") (Some (<[0%nat := Some 1]> zeros))
         (Some (static_entry <$> <[0%nat := Some 1]> zeros))) = Some t /\
    length k = 6%nat /\ length t = 6%nat /\
    Forall resolved k /\ Forall resolved t /\
    (dof k <= 1)%nat.
Proof.
  exact (torsor_entries_binary "revolute" (Some "x") _ eq_refl).
Defined.

(** C10. Axis matching is case-sensitive: for a type that requires an axis
    (revolute, prismatic), the axis "X", "Y" or "Z" makes the construction
    fail with the invalid-axis error, while its lower-case form is
    accepted. *)
Theorem axis_case_sensitive (jt a : string) (info : JointInfo) :
  JOINT_TYPES !! PyStr.lower jt = Some info ->
  axis_required info = true ->
  a ∈ ["X"; "Y"; "Z"] ->
  new_Joint jt (Some a) = Raise invalid_axis /\
  exists self, new_Joint jt (Some (PyStr.lower a)) = Ok self.
Proof.
  intros H Hreq Ha. rewrite !new_Joint_update. split.
  - rewrite (update_invalid_axis (mkJoint (PyStr.lower jt) (Some a) None None)
               info a); try done.
    repeat (apply elem_of_cons in Ha as [->|Ha]; [reflexivity|]).
    now apply elem_of_nil in Ha.
  - assert (Hi : exists i, axis_index !! PyStr.lower a = Some i).
    { repeat (apply elem_of_cons in Ha as [->|Ha]; [eexists; reflexivity|]).
      now apply elem_of_nil in Ha. }
    destruct Hi as [i Hi].
    destruct (update_with_axis (mkJoint (PyStr.lower jt) (Some (PyStr.lower a))
                                  None None) info _ i H Hreq eq_refl Hi)
      as (j & _ & Hrun).
    rewrite Hrun. eexists; reflexivity.
Qed.

Lemma axis_case_sensitive_witness :
  ("X" ∈ ["X"; "Y"; "Z"]) /\
  new_Joint "revolute" (Some "X") = Raise invalid_axis /\
  exists self, new_Joint "revolute" (Some (PyStr.lower "X")) = Ok self.
Proof.
  assert (HX : "X" ∈ ["X"; "Y"; "Z"]) by constructor.
  split; [exact HX|].
  exact (axis_case_sensitive "revolute" "X"
           (mkJointInfo "Pivot" true "Rotation around a fixed axis")
           eq_refl eq_refl HX).
Defined.

(** * Further properties of the class *)

(** ** Re-running [_update_torsors] on an existing instance *)

Lemma catalog_key_lower k info :
  JOINT_TYPES !! k = Some info -> PyStr.lower k = k.
Proof.
  intros H.
  apply JOINT_TYPES_lookup_Some in H as [[[->| ->] _]|[[->| ->] _]];
    reflexivity.
Qed.

Lemma update_Ok_lookup self self' :
  _update_torsors self = (Ok tt, self') ->
  is_Some (JOINT_TYPES !! joint_type self).
Proof.
  intros Hrun. destruct (JOINT_TYPES !! joint_type self) eqn:H; [eauto|].
  rewrite (update_unknown self H) in Hrun. discriminate.
Qed.

(** X1. When [_update_torsors] raises on an existing instance, the instance
    is left exactly as it was: both torsors keep their previous values.  The
    exception is one of the three validation errors. *)
Theorem update_failure_keeps_instance (self self' : Joint) (e : exn) :
  _update_torsors self = (Raise e, self') ->
  self' = self /\
  (e = unknown_joint_type (joint_type self) \/
   e = missing_axis (joint_type self) \/ e = invalid_axis).
Proof.
  intros Hrun.
  destruct (update_cases self) as [(e' & Hrun' & He)|(k & Hrun' & _)];
    rewrite Hrun' in Hrun; [|discriminate].
  injection Hrun as <- <-. auto.
Qed.

Lemma update_failure_keeps_instance_witness :
  let stale := mkJoint "revolute" None (Some (<[0%nat := Some 1]> zeros))
                 (Some (static_entry <$> <[0%nat := Some 1]> zeros)) in
  _update_torsors stale = (Raise (missing_axis "revolute"), stale) /\
  stale = stale /\
  (missing_axis "revolute" = unknown_joint_type (joint_type stale) \/
   missing_axis "revolute" = missing_axis (joint_type stale) \/
   missing_axis "revolute" = invalid_axis).
Proof.
  intros stale. split; [reflexivity|].
  exact (update_failure_keeps_instance stale stale (missing_axis "revolute")
           eq_refl).
Defined.

(** X2. When [_update_torsors] returns on an instance, the instance it
    leaves is the one the constructor builds from the attributes
    [joint_type] and [axis], and running the method once more changes
    nothing. *)
Theorem update_agrees_with_constructor (self self' : Joint) :
  _update_torsors self = (Ok tt, self') ->
  new_Joint (joint_type self) (axis self) = Ok self' /\
  _update_torsors self' = (Ok tt, self').
Proof.
  intros Hrun.
  destruct (update_Ok_lookup self self' Hrun) as [info Hinfo].
  pose proof (catalog_key_lower _ _ Hinfo) as Hlow.
  destruct self as [jt ax k t]; simpl in *.
  split.
  - rewrite new_Joint_update, Hlow.
    now rewrite (proj2 (update_frame jt ax k t None None) self' Hrun).
  - destruct (update_cases (mkJoint jt ax k t)) as [(e & He & _)|(k' & Hk' & _)];
      rewrite Hrun in *; [discriminate|].
    injection Hk' as ->. simpl.
    exact (proj2 (update_frame jt ax k t _ _) _ Hrun).
Qed.

Lemma update_agrees_with_constructor_witness :
  let before := mkJoint "prismatic" (Some "z") (Some zeros) (Some ones) in
  let after := mkJoint "prismatic" (Some "z") (Some (<[5%nat := Some 1]> zeros))
                 (Some (static_entry <$> <[5%nat := Some 1]> zeros)) in
  _update_torsors before = (Ok tt, after) /\
  new_Joint (joint_type before) (axis before) = Ok after /\
  _update_torsors after = (Ok tt, after).
Proof.
  intros before after. split; [reflexivity|].
  exact (update_agrees_with_constructor before after eq_refl).
Defined.

(** X3. Only the constructor lower-cases the joint type.  On an instance
    whose attribute [joint_type] is not already in lower case,
    [_update_torsors] raises the unknown-joint-type error and changes
    nothing, whatever the axis. *)
Theorem update_is_case_sensitive (self : Joint) :
  PyStr.lower (joint_type self) <> joint_type self ->
  _update_torsors self = (Raise (unknown_joint_type (joint_type self)), self).
Proof.
  intros Hlow. apply update_unknown.
  destruct (JOINT_TYPES !! joint_type self) as [info|] eqn:H; [|reflexivity].
  now apply catalog_key_lower in H.
Qed.

Lemma update_is_case_sensitive_witness :
  PyStr.lower "Revolute" <> "Revolute" /\
  _update_torsors (mkJoint "Revolute" (Some "x") None None) =
  (Raise (unknown_joint_type "Revolute"),
   mkJoint "Revolute" (Some "x") None None).
Proof.
  assert (H : PyStr.lower "Revolute" <> "Revolute") by discriminate.
  split; [exact H|].
  exact (update_is_case_sensitive (mkJoint "Revolute" (Some "x") None None) H).
Defined.

(** ** What the constructor accepts and what it builds *)

(** The instances the constructor can return: six with an axis, and the
    all-constrained one for each type without axis. *)
Lemma new_Joint_Ok_inv jt ax self :
  new_Joint jt ax = Ok self ->
  (exists key,
     key ∈ ["fixed"; "fixed_point"] /\ PyStr.lower jt = key /\
     self = mkJoint key ax (Some zeros) (Some ones)) \/
  (exists key a (j : nat),
     (key, a, j) ∈ [("revolute", "x", 0%nat); ("revolute", "y", 1%nat);
                    ("revolute", "z", 2%nat); ("prismatic", "x", 3%nat);
                    ("prismatic", "y", 4%nat); ("prismatic", "z", 5%nat)] /\
     PyStr.lower jt = key /\ ax = Some a /\
     self = mkJoint key (Some a) (Some (<[j := Some 1]> zeros))
              (Some (static_entry <$> <[j := Some 1]> zeros))).
Proof.
  rewrite new_Joint_update. set (s := mkJoint (PyStr.lower jt) ax None None).
  intros Hnew.
  destruct (JOINT_TYPES !! PyStr.lower jt) as [info|] eqn:H.
  2:{ rewrite (update_unknown s H) in Hnew. discriminate. }
  destruct (axis_required info) eqn:Hreq.
  2:{ rewrite (update_no_axis s info H Hreq) in Hnew. injection Hnew as <-.
      left. exists (PyStr.lower jt). split; [|now split].
      apply JOINT_TYPES_lookup_Some in H as [[_ Ht]|[[->| ->] _]];
        [congruence| |]; repeat constructor. }
  destruct ax as [a|].
  2:{ rewrite (update_missing_axis s info H Hreq eq_refl) in Hnew.
      discriminate. }
  destruct (axis_index !! a) as [i|] eqn:Ha.
  2:{ rewrite (update_invalid_axis s info a H Hreq eq_refl Ha) in Hnew.
      discriminate. }
  destruct (update_with_axis s info a i H Hreq eq_refl Ha) as (j & Hj & Hrun).
  rewrite Hrun in Hnew. injection Hnew as <-. simpl in Hj |- *.
  right. exists (PyStr.lower jt), a, j. split; [|now repeat split].
  apply axis_index_lookup_Some in Ha as [[-> ->]|[[-> ->]|[-> ->]]];
    destruct Hj as [[-> ->]|[-> ->]]; simpl; repeat constructor.
Qed.

(** X4. The constructor returns an instance exactly when the lower-cased
    joint type is a catalog key and, if that entry requires an axis, the
    axis given is "x", "y" or "z".  The instance stores the lower-cased type
    and the axis as given. *)
Theorem construction_succeeds_iff (jt : string) (ax : option string) :
  ((exists self, new_Joint jt ax = Ok self) <->
   (exists info,
      JOINT_TYPES !! PyStr.lower jt = Some info /\
      (axis_required info = true ->
       exists a, ax = Some a /\ a ∈ ["x"; "y"; "z"]))) /\
  (forall self, new_Joint jt ax = Ok self ->
     joint_type self = PyStr.lower jt /\ axis self = ax).
Proof.
  split; [split|].
  - intros [self Hnew].
    apply new_Joint_Ok_inv in Hnew
      as [(key & Hkey & Hlow & _)|(key & a & j & Hin & Hlow & -> & _)];
      rewrite Hlow.
    + repeat (apply elem_of_cons in Hkey as [->|Hkey];
              [eexists; split; [reflexivity|discriminate]|]).
      now apply elem_of_nil in Hkey.
    + repeat (apply elem_of_cons in Hin as [[= -> -> ->]|Hin];
              [eexists; split;
                 [reflexivity|intros _; eexists; split;
                                [reflexivity|repeat constructor]]|]).
      now apply elem_of_nil in Hin.
  - intros (info & H & Hax). rewrite new_Joint_update.
    set (s := mkJoint (PyStr.lower jt) ax None None).
    destruct (axis_required info) eqn:Hreq.
    + destruct (Hax eq_refl) as (a & -> & Ha).
      assert (Hi : exists i, axis_index !! a = Some i).
      { repeat (apply elem_of_cons in Ha as [->|Ha]; [eexists; reflexivity|]).
        now apply elem_of_nil in Ha. }
      destruct Hi as [i Hi].
      destruct (update_with_axis s info a i H Hreq eq_refl Hi) as (j & _ & ->).
      eexists; reflexivity.
    + rewrite (update_no_axis s info H Hreq). eexists; reflexivity.
  - intros self Hnew.
    apply new_Joint_Ok_inv in Hnew
      as [(key & _ & Hlow & ->)|(key & a & j & _ & Hlow & -> & ->)];
      now rewrite Hlow.
Qed.

(** X5. Mobility count: a constructed joint has exactly one free coordinate
    when its catalog entry requires an axis and none otherwise, and the
    numbers of [1] entries in the kinematic and in the static torsor add up
    to six. *)
Theorem mobility_count (jt : string) (ax : option string) (self : Joint)
    (info : JointInfo) (k t : torsor) :
  new_Joint jt ax = Ok self ->
  JOINT_TYPES !! PyStr.lower jt = Some info ->
  K self = Some k -> T self = Some t ->
  dof k = (if axis_required info then 1 else 0)%nat /\
  (dof k + dof t = 6)%nat.
Proof.
  intros Hnew Hinfo HK HT.
  apply new_Joint_Ok_inv in Hnew
    as [(key & Hkey & Hlow & ->)|(key & a & j & Hin & Hlow & -> & ->)];
    simpl in HK, HT; injection HK as <-; injection HT as <-;
    rewrite Hlow in Hinfo.
  - repeat (apply elem_of_cons in Hkey as [->|Hkey];
            [injection Hinfo as <-; split; reflexivity|]).
    now apply elem_of_nil in Hkey.
  - repeat (apply elem_of_cons in Hin as [[= -> -> ->]|Hin];
            [injection Hinfo as <-; split; reflexivity|]).
    now apply elem_of_nil in Hin.
Qed.

Lemma mobility_count_witness :
  let k : torsor := <[1%nat := Some 1]> zeros in
  let t : torsor := static_entry <$> k in
  new_Joint "Revolute" (Some "y") =
    Ok (mkJoint "revolute" (Some "y") (Some k) (Some t)) /\
  dof k = 1%nat /\ (dof k + dof t = 6)%nat.
Proof.
  intros k t. split; [reflexivity|].
  exact (mobility_count "Revolute" (Some "y")
           (mkJoint "revolute" (Some "y") (Some k) (Some t))
           (mkJointInfo "Pivot" true "Rotation around a fixed axis")
           k t eq_refl eq_refl eq_refl eq_refl).
Defined.

(** X6. The kinematic torsor identifies the joint: two constructed joints
    with the same kinematic torsor, not all zero, have the same joint type
    and the same axis, hence are equal. *)
Theorem kinematic_torsor_identifies_joint (jt1 jt2 : string)
    (ax1 ax2 : option string) (self1 self2 : Joint) :
  new_Joint jt1 ax1 = Ok self1 ->
  new_Joint jt2 ax2 = Ok self2 ->
  K self1 = K self2 ->
  K self1 <> Some zeros ->
  self1 = self2.
Proof.
  intros H1 H2 HK Hnz.
  apply new_Joint_Ok_inv in H1
    as [(key1 & _ & _ & ->)|(key1 & a1 & j1 & Hin1 & _ & -> & ->)];
    [now destruct Hnz|].
  apply new_Joint_Ok_inv in H2
    as [(key2 & _ & _ & ->)|(key2 & a2 & j2 & Hin2 & _ & -> & ->)];
    simpl in HK.
  - exfalso. apply Hnz. exact HK.
  - clear Hnz.
    repeat (apply elem_of_cons in Hin1 as [[= -> -> ->]|Hin1];
            [repeat (apply elem_of_cons in Hin2 as [[= -> -> ->]|Hin2];
                     [first [reflexivity|discriminate HK]|]);
             now apply elem_of_nil in Hin2|]).
    now apply elem_of_nil in Hin1.
Qed.

Lemma kinematic_torsor_identifies_joint_witness :
  let self := mkJoint "revolute" (Some "y") (Some (<[1%nat := Some 1]> zeros))
                (Some (static_entry <$> <[1%nat := Some 1]> zeros)) in
  new_Joint "REVOLUTE" (Some "y") = Ok self /\
  new_Joint "revolute" (Some "y") = Ok self /\
  K self <> Some zeros /\
  self = self.
Proof.
  intros self.
  assert (Hnz : K self <> Some zeros) by discriminate.
  split; [reflexivity|]. split; [reflexivity|]. split; [exact Hnz|].
  exact (kinematic_torsor_identifies_joint "REVOLUTE" "revolute"
           (Some "y") (Some "y") self self eq_refl eq_refl eq_refl Hnz).
Defined.

(** ** Printing *)

Lemma for_each_print {A} (f : A -> string) (xs : list A) (out : list string) :
  for_each xs (fun x => print (f x)) out = (Ok tt, out ++ (f <$> xs)).
Proof.
  revert out. induction xs as [|x xs IH]; intros out; simpl.
  - unfold io_ret. now rewrite app_nil_r.
  - unfold io_bind, print at 1. rewrite IH. now rewrite <- app_assoc.
Qed.

Lemma bind_print {B} (s : string) (m : IO B) (out : list string) :
  (print s >> m) out = m (out ++ [s]).
Proof. reflexivity. Qed.

Lemma bind_for_each_print {A B} (f : A -> string) (xs : list A) (m : IO B)
    (out : list string) :
  (for_each xs (fun x => print (f x)) >> m) out = m (out ++ (f <$> xs)).
Proof. unfold io_bind. now rewrite for_each_print. Qed.

Lemma print_preamble {B} self (m : IO B) out :
  (print ("Mechanical joint type : " +:+ joint_type self) >>
   (if truthy (axis self)
    then print ("Axis : " +:+ default "" (axis self))
    else io_ret tt) >>
   print (String newline "Kinematic torsor (DDL):") >> m) out =
  m (out ++ preamble self).
Proof.
  rewrite bind_print. unfold preamble.
  destruct (truthy (axis self)).
  - rewrite !bind_print. f_equal. now rewrite <- !app_assoc.
  - unfold io_bind at 1, io_ret. rewrite bind_print. f_equal.
    now rewrite <- !app_assoc.
Qed.

Lemma print_torsors_run self k t out :
  K self = Some k -> T self = Some t ->
  print_torsors self out =
  (Ok tt, out ++ preamble self ++ (row <$> zip kinematic_labels k) ++
          [String newline "Static torsor (ideal):"] ++
          (row <$> zip static_labels t)).
Proof.
  intros HK HT. unfold print_torsors. rewrite HK, HT, print_preamble.
  rewrite bind_for_each_print, bind_print, for_each_print.
  f_equal. now rewrite <- !app_assoc.
Qed.

Lemma length_preamble self :
  length (preamble self) = if truthy (axis self) then 3%nat else 2%nat.
Proof. unfold preamble. now destruct (truthy (axis self)). Qed.

(** X7. On an instance holding two torsors of any length, [print_torsors]
    returns, keeps what was printed before, and prints the type, the axis
    line only when the axis is given and not empty, the two headings, and one
    row per label that has an entry: rows beyond the sixth entry are never
    printed and a shorter torsor gives fewer rows. *)
Theorem print_torsors_rows (self : Joint) (k t : torsor) (out : list string) :
  K self = Some k -> T self = Some t ->
  exists lines,
    print_torsors self out = (Ok tt, out ++ lines) /\
    length lines =
      ((if truthy (axis self) then 4 else 3) +
       length k `min` 6 + length t `min` 6)%nat.
Proof.
  intros HK HT. eexists. split; [exact (print_torsors_run self k t out HK HT)|].
  rewrite !length_app, length_preamble, !length_fmap, !length_zip_with.
  change (length kinematic_labels) with 6%nat.
  change (length static_labels) with 6%nat.
  change (length [String newline "Static torsor (ideal):"]) with 1%nat.
  destruct (truthy (axis self)); lia.
Qed.

Lemma print_torsors_rows_witness :
  exists lines,
    print_torsors
      (mkJoint "fixed" (Some "") (Some [Some 1; None]) (Some (ones ++ ones)))
      ["earlier"] = (Ok tt, ["earlier"] ++ lines) /\
    length lines = (3 + 2 `min` 6 + 12 `min` 6)%nat.
Proof.
  exact (print_torsors_rows
           (mkJoint "fixed" (Some "") (Some [Some 1; None])
                    (Some (ones ++ ones)))
           [Some 1; None] (ones ++ ones) ["earlier"] eq_refl eq_refl).
Defined.

(** X8. For a constructed joint [print_torsors] returns.  After the type,
    the optional axis line and the heading come six kinematic rows, then
    the static heading and six static rows.  Row [i] of each block carries
    the label of coordinate [i]; the kinematic row shows the entry of [K],
    which is 0 or 1, and the static row shows the other digit. *)
Theorem print_torsors_of_constructed (jt : string) (ax : option string)
    (self : Joint) (out : list string) :
  new_Joint jt ax = Ok self ->
  exists (k : torsor) (krows srows : list string),
    K self = Some k /\
    print_torsors self out =
      (Ok tt, out ++ preamble self ++ krows ++
              [String newline "Static torsor (ideal):"] ++ srows) /\
    length krows = 6%nat /\ length srows = 6%nat /\
    forall (i : nat) (klabel slabel : string),
      kinematic_labels !! i = Some klabel ->
      static_labels !! i = Some slabel ->
      exists v : Z,
        (v = 0 \/ v = 1) /\ k !! i = Some (Some v) /\
        krows !! i = Some ("  " +:+ klabel +:+ " = " +:+ pretty v) /\
        srows !! i = Some ("  " +:+ slabel +:+ " = " +:+ pretty (1 - v)).
Proof.
  intros Hnew. rewrite new_Joint_update in Hnew.
  destruct (update_cases (mkJoint (PyStr.lower jt) ax None None))
    as [(e & Hrun & _)|(k & Hrun & Hk)]; rewrite Hrun in Hnew; [discriminate|].
  injection Hnew as <-.
  pose proof (kinematic_resolved k Hk) as Hres.
  assert (Hlen : length k = 6%nat).
  { destruct Hk as [-> | (j & _ & ->)]; [reflexivity|now rewrite length_insert]. }
  exists k, (row <$> zip kinematic_labels k),
         (row <$> zip static_labels (static_entry <$> k)).
  split; [reflexivity|]. split; [now apply print_torsors_run|].
  split; [now rewrite length_fmap, length_zip_with, Hlen|].
  split; [now rewrite length_fmap, length_zip_with, length_fmap, Hlen|].
  intros i klabel slabel Hkl Hsl.
  assert (Hi : (i < length k)%nat).
  { rewrite Hlen. apply lookup_lt_Some in Hkl. exact Hkl. }
  destruct (lookup_lt_is_Some_2 k i Hi) as [x Hx].
  pose proof (Forall_lookup_1 _ _ _ _ Hres Hx) as Hv.
  assert (Hrows :
    (row <$> zip kinematic_labels k) !! i = Some (row (klabel, x)) /\
    (row <$> zip static_labels (static_entry <$> k)) !! i =
      Some (row (slabel, static_entry x))).
  { rewrite !list_lookup_fmap, !lookup_zip_with, list_lookup_fmap.
    now rewrite Hkl, Hsl, Hx. }
  destruct Hrows as [Hkr Hsr].
  destruct Hv as [-> | ->]; [exists 0|exists 1]; rewrite Hkr, Hsr; auto.
Qed.

Lemma print_torsors_of_constructed_witness :
  exists (k : torsor) (krows srows : list string),
    K (mkJoint "prismatic" (Some "y") (Some (<[4%nat := Some 1]> zeros))
         (Some (static_entry <$> <[4%nat := Some 1]> zeros))) = Some k /\
    print_torsors
      (mkJoint "prismatic" (Some "y") (Some (<[4%nat := Some 1]> zeros))
         (Some (static_entry <$> <[4%nat := Some 1]> zeros))) [] =
      (Ok tt, [] ++ preamble
                (mkJoint "prismatic" (Some "y")
                   (Some (<[4%nat := Some 1]> zeros))
                   (Some (static_entry <$> <[4%nat := Some 1]> zeros))) ++
              krows ++ [String newline "Static torsor (ideal):"] ++ srows) /\
    length krows = 6%nat /\ length srows = 6%nat /\
    forall (i : nat) (klabel slabel : string),
      kinematic_labels !! i = Some klabel ->
      static_labels !! i = Some slabel ->
      exists v : Z,
        (v = 0 \/ v = 1) /\ k !! i = Some (Some v) /\
        krows !! i = Some ("  " +:+ klabel +:+ " = " +:+ pretty v) /\
        srows !! i = Some ("  " +:+ slabel +:+ " = " +:+ pretty (1 - v)).
Proof.
  exact (print_torsors_of_constructed "prismatic" (Some "y") _ [] eq_refl).
Defined.

(** X9. On an instance whose kinematic torsor is [None], [print_torsors]
    raises [TypeError] after it has printed the type, the optional axis line
    and the kinematic heading; when only the static torsor is [None] it
    raises after the kinematic rows and the static heading.  What was
    printed stays printed. *)
Theorem print_torsors_missing_torsor (self : Joint) (out : list string) :
  K self = None \/ T self = None ->
  print_torsors self out =
  (Raise TypeError,
   out ++ preamble self ++
   match K self with
   | None => []
   | Some k => (row <$> zip kinematic_labels k) ++
               [String newline "Static torsor (ideal):"]
   end).
Proof.
  intros H. unfold print_torsors. rewrite print_preamble.
  destruct (K self) as [k|].
  - destruct H as [H|H]; [discriminate|]. rewrite H.
    rewrite bind_for_each_print, bind_print. unfold io_raise.
    f_equal. now rewrite <- !app_assoc.
  - unfold io_bind, io_raise. now rewrite app_nil_r.
Qed.

Lemma print_torsors_missing_torsor_witness :
  (K blank = None \/ T blank = None) /\
  print_torsors blank [] =
  (Raise TypeError,
   ["Mechanical joint type : "; String newline "Kinematic torsor (DDL):"]).
Proof.
  split; [now left|].
  exact (print_torsors_missing_torsor blank [] (or_introl eq_refl)).
Defined.

Lemma list_run (cls : list (string * JointInfo)) (out : list string) :
  JointClass.list cls out =
  (Ok tt, out ++ ("Available mechanical joint types:" +:+ String newline "") ::
                 (JointClass.item_line <$> cls)).
Proof.
  unfold JointClass.list. rewrite bind_print, for_each_print.
  now rewrite <- app_assoc.
Qed.

(** X10. [list] on the class catalog returns, keeps what was printed before,
    and prints the heading followed by one line per catalog entry, in the
    order of the dictionary.  The listing agrees with the constructor: an
    entry is tagged "axis required" exactly when constructing that type
    without an axis raises the missing-axis error, and tagged "no axis" when
    that construction returns an instance; every type the constructor
    resolves is listed. *)
Theorem list_agrees_with_constructor (out : list string) :
  exists lines : list string,
    JointClass.list JOINT_TYPES_items out =
      (Ok tt,
       out ++ ("Available mechanical joint types:" +:+ String newline "") ::
              lines) /\
    length lines = length JOINT_TYPES_items /\
    (forall (i : nat) (key : string) (info : JointInfo),
       JOINT_TYPES_items !! i = Some (key, info) ->
       JOINT_TYPES !! key = Some info /\
       if axis_required info then
         lines !! i =
           Some ("- " +:+ key +:+ " (" +:+ french info +:+ ") : " +:+
                 description info +:+ " [axis required]") /\
         new_Joint key None = Raise (missing_axis key)
       else
         lines !! i =
           Some ("- " +:+ key +:+ " (" +:+ french info +:+ ") : " +:+
                 description info +:+ " [no axis]") /\
         exists self, new_Joint key None = Ok self) /\
    (forall (s : string) (info : JointInfo),
       JOINT_TYPES !! PyStr.lower s = Some info ->
       exists i, JOINT_TYPES_items !! i = Some (PyStr.lower s, info)).
Proof.
  exists (JointClass.item_line <$> JOINT_TYPES_items).
  split; [apply list_run|]. split; [apply length_fmap|]. split.
  - intros i key info Hi.
    do 4 (destruct i as [|i];
          [injection Hi as <- <-; split; [reflexivity|];
           simpl; split; [reflexivity|];
           first [reflexivity | eexists; reflexivity]|]).
    discriminate Hi.
  - intros s info H. apply list_elem_of_lookup.
    now apply elem_of_list_to_map_2.
Qed.

(** ** Duality *)

Lemma static_entry_involutive v :
  resolved v -> static_entry (static_entry v) = v.
Proof. intros [-> | ->]; reflexivity. Qed.

(** X11. Duality round trip: for a constructed joint, applying the static
    derivation to the static torsor gives back the kinematic torsor. *)
Theorem static_of_static_is_kinematic (jt : string) (ax : option string)
    (self : Joint) (k t : torsor) :
  new_Joint jt ax = Ok self ->
  K self = Some k -> T self = Some t ->
  static_entry <$> t = k.
Proof.
  intros Hnew HK HT. rewrite new_Joint_update in Hnew.
  destruct (update_cases (mkJoint (PyStr.lower jt) ax None None))
    as [(e & Hrun & _)|(k' & Hrun & Hk')]; rewrite Hrun in Hnew; [discriminate|].
  injection Hnew as <-. simpl in HK, HT. injection HK as ->. injection HT as <-.
  pose proof (kinematic_resolved k Hk') as Hres.
  rewrite <- list_fmap_compose.
  rewrite <- (list_fmap_id k) at 2.
  apply Forall_fmap_ext_1. eapply Forall_impl; [exact Hres|].
  intros v Hv. now apply static_entry_involutive.
Qed.

Lemma static_of_static_is_kinematic_witness :
  let k : torsor := <[2%nat := Some 1]> zeros in
  let t : torsor := static_entry <$> k in
  new_Joint "revolute" (Some "z") =
    Ok (mkJoint "revolute" (Some "z") (Some k) (Some t)) /\
  static_entry <$> t = k.
Proof.
  intros k t. split; [reflexivity|].
  exact (static_of_static_is_kinematic "revolute" (Some "z")
           (mkJoint "revolute" (Some "z") (Some k) (Some t)) k t
           eq_refl eq_refl eq_refl).
Defined.
